(** * Product catalogue service: the HTTP routes of [service/routes.py]

    The request handlers of [service/routes.py] are embedded as
    functions over an explicit database state, together with the
    [Product] model they call.  The handlers are transcribed from the
    source.  The model ([Product], [Category], [DataValidationError])
    is imported by the routes from [service.models] and exercised by
    [tests/test_models.py]; that module is not among the verified
    sources, so each of its operations is written down from the
    specification and marked as such. *)

From Stdlib Require Import ZArith String Ascii List Lia.
From stdpp Require Import base option gmap strings list fin_maps.

Local Open Scope string_scope.

(** ** Values carried by JSON payloads *)

(** A decimal number [unscaled * 10 ^ (- scale)]: [12.50] is
    [{| unscaled := 1250; scale := 2 |}]. *)
Record Decimal : Type := mkDecimal { unscaled : Z; scale : nat }.

#[global] Instance Decimal_eq_dec : EqDecision Decimal.
Proof. solve_decision. Defined.

(** Numeric comparison of two decimals: both are brought to a common
    scale, so [12.5] and [12.50] compare equal. *)
Definition Decimal_eqb (a b : Decimal) : bool :=
  (unscaled a * 10 ^ Z.of_nat (scale b) =? unscaled b * 10 ^ Z.of_nat (scale a))%Z.

Definition Decimal_of_nat (n : nat) : Decimal :=
  {| unscaled := Z.of_nat n; scale := 0 |}.

(** The untyped values of a key-value payload.  [VOther] is any value
    no operation reads: a list, an object, or a float that is no finite
    number. *)
Inductive Value : Type :=
| VNull
| VBool (b : bool)
| VNum (d : Decimal)
| VStr (s : string)
| VOther.

#[global] Instance Value_eq_dec : EqDecision Value.
Proof. solve_decision. Defined.

(** A payload is a Python [dict] with string keys. *)
Abbreviation Payload := (gmap string Value).

(** ** What [request.get_json()] returns

    The library decodes the body into Python values: a JSON number
    with a fraction or an exponent becomes a binary [float], any other
    number an [int]. *)

(** A Python [float]: the finite ones are the dyadic numbers
    [m * 2 ^ e]. *)
Inductive PyFloat : Type :=
| Finite (m e : Z)
| Infinite (negative : bool)
| NaN.

#[warnings="-register-all"]
Inductive PyJson : Type :=
| JNone
| JBool (b : bool)
| JInt (z : Z)
| JFloat (f : PyFloat)
| JStr (s : string)
| JList (l : list PyJson)
| JDict (d : gmap string PyJson).

(** The decimal a finite float is, digit for digit:
    [m * 2 ^ (- k) = m * 5 ^ k * 10 ^ (- k)].  Nothing is rounded. *)
Definition Decimal_of_float (f : PyFloat) : option Decimal :=
  match f with
  | Finite m e =>
      if (0 <=? e)%Z
      then Some {| unscaled := m * 2 ^ e; scale := 0 |}
      else Some {| unscaled := m * 5 ^ (- e); scale := Z.to_nat (- e) |}
  | _ => None
  end.


(** A decoded value as a value of a key-value payload: numbers are
    carried over as the decimals they are. *)
Definition value_of_json (x : PyJson) : Value :=
  match x with
  | JNone => VNull
  | JBool b => VBool b
  | JInt z => VNum {| unscaled := z; scale := 0 |}
  | JFloat f =>
      match Decimal_of_float f with
      | Some d => VNum d
      | None => VOther
      end
  | JStr s => VStr s
  | JList _ => VOther
  | JDict _ => VOther
  end.

(** A decoded [dict] as a key-value payload; any other decoded value
    is no payload. *)
Definition payload_of_json (data : PyJson) : option Payload :=
  match data with
  | JDict d => Some (value_of_json <$> d)
  | _ => None
  end.

(** The body of a request, as [request.get_json()] finds it: it decodes
    to a value, or it does not, and then the library raises a
    [BadRequest] with the [description] given here. *)
Inductive JsonBody : Type :=
| Decoded (data : PyJson)
| Undecodable (description : string).

(** ** Requests, responses and exceptions *)

(** What a handler reads from [flask.request].
    - [content_type_header]: the value of the [Content-Type] header,
      [None] when ["Content-Type" not in request.headers];
    - [json_body]: what [request.get_json()] makes of the body;
    - [args]: the query string as the list of its (key, value) pairs,
      in order; [request.args.get] takes the first value of a key. *)
Record Request : Type := mkRequest {
  content_type_header : option string;
  json_body : JsonBody;
  args : list (string * string)
}.

Fixpoint args_get (key : string) (a : list (string * string)) : option string :=
  match a with
  | [] => None
  | (k, v) :: rest => if String.eqb k key then Some v else args_get key rest
  end.

(** The body a view function returns: a plain [str], or what
    [jsonify] makes of a string, a dict or a list of dicts. *)
Inductive Body : Type :=
| BodyText (s : string)
| JsonString (s : string)
| JsonObject (o : Payload)
| JsonArray (l : list Payload).

Record Response : Type := mkResponse {
  status : nat;
  body : Body;
  headers : list (string * string)
}.

(** The codes of [service.common.status] used by the routes. *)
Definition HTTP_200_OK : nat := 200.
Definition HTTP_201_CREATED : nat := 201.
Definition HTTP_204_NO_CONTENT : nat := 204.
Definition HTTP_400_BAD_REQUEST : nat := 400.
Definition HTTP_404_NOT_FOUND : nat := 404.
Definition HTTP_415_UNSUPPORTED_MEDIA_TYPE : nat := 415.
Definition HTTP_500_INTERNAL_SERVER_ERROR : nat := 500.

(** Why a [DataValidationError] was raised. *)
Inductive Invalid : Type :=
| MissingKey (key : string)
| WrongType (key : string)
| UnknownCategory (name : string)
| EmptyId
| NotAnObject.

(** The exceptions that leave a handler:
    - [HTTPException code description] is what [abort(code, description)]
      raises;
    - [DataValidationError] is the model's validation error;
    - [AttributeError attr] is what [getattr(obj, attr)] raises when
      [obj] has no attribute [attr]. *)
Inductive Exn : Type :=
| HTTPException (code : nat) (description : string)
| DataValidationError (why : Invalid)
| AttributeError (attr : string).

(** ** Text helpers *)

(** [mentions msg s]: the text [s] occurs somewhere in [msg]. *)
Definition mentions (msg s : string) : bool :=
  match String.index 0 s msg with
  | Some _ => true
  | None => false
  end.

Definition digit_of_ascii (c : ascii) : option nat :=
  let n := nat_of_ascii c in
  if (48 <=? n)%nat && (n <=? 57)%nat then Some (n - 48)%nat else None.

Fixpoint digits_value (acc : nat) (s : string) : option nat :=
  match s with
  | EmptyString => Some acc
  | String c rest =>
      match digit_of_ascii c with
      | Some d => digits_value (10 * acc + d) rest
      | None => None
      end
  end.

(** The identifier a path segment denotes: a non-empty run of decimal
    digits read as a number; any other text denotes no identifier. *)
Definition id_of_text (s : string) : option nat :=
  match s with
  | EmptyString => None
  | _ => digits_value 0 s
  end.

(** ASCII upper-casing, the instance of [str.upper] used on concrete
    inputs. *)
Definition ascii_upper (c : ascii) : ascii :=
  let n := nat_of_ascii c in
  if (97 <=? n)%nat && (n <=? 122)%nat then ascii_of_nat (n - 32) else c.

Fixpoint string_upper (s : string) : string :=
  match s with
  | EmptyString => EmptyString
  | String c rest => String (ascii_upper c) (string_upper rest)
  end.

(** Python truthiness of the result of [request.args.get]: [None] and
    the empty string are falsy. *)
Definition truthy (o : option string) : bool :=
  match o with
  | Some (String _ _) => true
  | _ => false
  end.

(** ** What the routes import

    [Category] is declared in the model module and [str.upper] belongs
    to the Python runtime.  Both enter as interfaces: the enumeration
    through the list of its members and their names, [str.upper] as
    the function it is. *)

(** An [Enum] class: [Category_members] is [list(Category)] and
    [Category_name c] is [c.name]. *)
Class CategoryEnum (Category : Type) : Type := {
  Category_eq_dec :: EqDecision Category;
  Category_members : list Category;
  Category_name : Category -> string
}.

(** [s.upper()]. *)
Class StrUpper : Type := str_upper : string -> string.

(** ** The data model *)

Record Product (Category : Type) : Type := mkProduct {
  id : option nat;
  name : string;
  description : string;
  price : Decimal;
  available : bool;
  category : Category
}.

Arguments mkProduct {Category} id name description price available category.
Arguments id {Category} p.
Arguments name {Category} p.
Arguments description {Category} p.
Arguments price {Category} p.
Arguments available {Category} p.
Arguments category {Category} p.

(** Modelled from the spec: the persisted state, which the absent
    model module keeps in a relational table.  "A single
    table/collection of Product rows keyed by a server-generated
    unique id": [table] maps each id to its row and [next_id] is the
    id the server hands out next. *)
Record Database (Category : Type) : Type := mkDatabase {
  table : gmap nat (Product Category);
  next_id : nat
}.

Arguments mkDatabase {Category} table next_id.
Arguments table {Category} d.
Arguments next_id {Category} d.

(** ** The service *)
Section Service.

Context {Category : Type} {enum : CategoryEnum Category} {upper : StrUpper}.

(** [getattr(Category, attr)]: the member called [attr], or an
    [AttributeError].  Only members are reached by name. *)
Definition Category_getattr (attr : string) : Exn + Category :=
  match List.find (fun c => String.eqb (Category_name c) attr) Category_members with
  | Some c => inr c
  | None => inl (AttributeError attr)
  end.

Definition with_id (i : option nat) (p : Product Category) : Product Category :=
  {| id := i; name := name p; description := description p;
     price := price p; available := available p; category := category p |}.

Definition empty_db : Database Category := {| table := ∅; next_id := 1 |}.

(** Every id in use was handed out before. *)
Definition db_wf (db : Database Category) : Prop :=
  forall i p, table db !! i = Some p -> i < next_id db.

(** *** Handlers: state passing with exceptions *)

(** A computation over the database that returns a value or raises;
    the database it leaves behind is returned in both cases. *)
Definition Handler (A : Type) : Type :=
  Database Category -> (Exn + A) * Database Category.

Definition h_ret {A : Type} (a : A) : Handler A := fun db => (inr a, db).

Definition raise {A : Type} (e : Exn) : Handler A := fun db => (inl e, db).

Definition h_bind {A B : Type} (m : Handler A) (k : A -> Handler B) : Handler B :=
  fun db =>
    match m db with
    | (inl e, db') => (inl e, db')
    | (inr a, db') => k a db'
    end.

(** A read of the database. *)
Definition query {A : Type} (f : Database Category -> A) : Handler A :=
  fun db => (inr (f db), db).

(** A pure step that may raise. *)
Definition attempt {A : Type} (r : Exn + A) : Handler A := fun db => (r, db).

(** [flask.abort]. *)
Definition abort {A : Type} (code : nat) (description : string) : Handler A :=
  raise (HTTPException code description).

Notation "'let*' x ':=' m 'in' k" := (h_bind m (fun x => k))
  (at level 10, x name, m at level 100, k at level 200).
Notation "'exec' m 'in' k" := (h_bind m (fun _ => k))
  (at level 10, m at level 100, k at level 200).

Definition and_then {A B : Type} (r : Exn + A) (k : A -> Exn + B) : Exn + B :=
  match r with
  | inl e => inl e
  | inr a => k a
  end.

Notation "'let?' x ':=' r 'in' k" := (and_then r (fun x => k))
  (at level 10, x name, r at level 100, k at level 200).

(** *** The model's operations *)

Definition get_str (data : Payload) (key : string) : Exn + string :=
  match data !! key with
  | None => inl (DataValidationError (MissingKey key))
  | Some (VStr s) => inr s
  | Some _ => inl (DataValidationError (WrongType key))
  end.

Definition get_num (data : Payload) (key : string) : Exn + Decimal :=
  match data !! key with
  | None => inl (DataValidationError (MissingKey key))
  | Some (VNum d) => inr d
  | Some _ => inl (DataValidationError (WrongType key))
  end.

Definition get_bool (data : Payload) (key : string) : Exn + bool :=
  match data !! key with
  | None => inl (DataValidationError (MissingKey key))
  | Some (VBool b) => inr b
  | Some _ => inl (DataValidationError (WrongType key))
  end.

Definition category_of_name (s : string) : Exn + Category :=
  match Category_getattr s with
  | inr c => inr c
  | inl _ => inl (DataValidationError (UnknownCategory s))
  end.

(** Modelled from the spec: [Product.deserialize], whose source is
    absent.  "Converts an untyped key-value payload into a Product;
    fails with a DataValidationError when required keys are absent,
    types are wrong (e.g., availability not boolean), or category is
    not a recognized enum name."  The method overwrites the five data
    fields of the object it is called on and leaves its id alone, so
    the object enters through its id: [None] for a fresh [Product()]. *)
Definition deserialize (self_id : option nat) (data : Payload) : Exn + (Product Category) :=
  let? n := get_str data "name" in
  let? d := get_str data "description" in
  let? p := get_num data "price" in
  let? a := get_bool data "available" in
  let? s := get_str data "category" in
  let? c := category_of_name s in
  inr {| id := self_id; name := n; description := d;
         price := p; available := a; category := c |}.

(** Modelled from the spec: [Product.deserialize], whose source is
    absent, on the value [request.get_json()] returned.  A [dict] is
    the key-value payload of [deserialize]; any other value has the
    wrong type and fails with a [DataValidationError]. *)
Definition deserialize_json (self_id : option nat) (data : PyJson) :
  Exn + Product Category :=
  match payload_of_json data with
  | Some payload => deserialize self_id payload
  | None => inl (DataValidationError NotAnObject)
  end.

Definition id_value (i : option nat) : Value :=
  match i with
  | None => VNull
  | Some n => VNum (Decimal_of_nat n)
  end.

(** Modelled from the spec: [Product.serialize], whose source is
    absent.  "Converts a Product into an untyped key-value payload
    exposing all fields, with category rendered as its name." *)
Definition serialize (p : Product Category) : Payload :=
  <["id" := id_value (id p)]>
  (<["name" := VStr (name p)]>
  (<["description" := VStr (description p)]>
  (<["price" := VNum (price p)]>
  (<["available" := VBool (available p)]>
  (<["category" := VStr (Category_name (category p))]> ∅))))).

(** Modelled from the spec: [Product.create], whose source is absent.
    "Persists a transient product, assigns a unique id, returns the
    persisted entity."  A [Product] value has all its fields, so the
    failure on missing fields is [deserialize]'s. *)
Definition Product_create (p : Product Category) : Handler (Product Category) :=
  fun db =>
    let i := next_id db in
    let p' := with_id (Some i) p in
    (inr p', {| table := <[i := p']> (table db); next_id := S i |}).

(** Modelled from the spec: [Product.update], whose source is absent.
    "Persists changes to an existing product identified by id.  Fails
    with ValidationError if id is null/absent." *)
Definition Product_update (p : Product Category) : Handler unit :=
  fun db =>
    match id p with
    | None => (inl (DataValidationError EmptyId), db)
    | Some i =>
        (inr tt, {| table := alter (fun _ => p) i (table db); next_id := next_id db |})
    end.

(** Modelled from the spec: [Product.delete], whose source is absent.
    "Removes the product by id"; nothing happens when no such row
    exists. *)
Definition Product_delete (p : Product Category) : Handler unit :=
  fun db =>
    match id p with
    | None => (inr tt, db)
    | Some i => (inr tt, {| table := delete i (table db); next_id := next_id db |})
    end.

(** Modelled from the spec: [Product.find], whose source is absent.
    "Returns the product with the given id, or an absence indicator
    (not found) if none exists." *)
Definition Product_find (db : Database Category) (i : nat) : option (Product Category) :=
  with_id (Some i) <$> table db !! i.

(** [Product.find] as the routes call it, on the text of the path
    segment. *)
Definition Product_find_text (db : Database Category) (product_id : string) :
  option (Product Category) :=
  match id_of_text product_id with
  | Some i => Product_find db i
  | None => None
  end.

(** Modelled from the spec: [Product.all], whose source is absent.
    "Returns every product, insertion order not guaranteed." *)
Definition Product_all (db : Database Category) : list (Product Category) :=
  (fun ip => with_id (Some (fst ip)) (snd ip)) <$> map_to_list (table db).

(** Modelled from the spec: [Product.find_by_name], whose source is
    absent.  "Returns all products whose name exactly matches
    (case-sensitive)." *)
Definition find_by_name (db : Database Category) (n : string) : list (Product Category) :=
  List.filter (fun p => String.eqb (name p) n) (Product_all db).

(** Modelled from the spec: [Product.find_by_category], whose source
    is absent.  "Returns all products whose category exactly matches
    the enum member." *)
Definition find_by_category (db : Database Category) (c : Category) : list (Product Category) :=
  List.filter (fun p => bool_decide (category p = c)) (Product_all db).

(** The argument of [find_by_availability]: the tests pass a [bool],
    the route passes the text of the query parameter. *)
Inductive AvailableArg : Type :=
| ArgBool (b : bool)
| ArgStr (s : string).

(** The text ["true"] or ["false"] parsed to a boolean. *)
Definition parse_available (s : string) : option bool :=
  if String.eqb s "true" then Some true
  else if String.eqb s "false" then Some false
  else None.

Definition available_matches (a : AvailableArg) (flag : bool) : bool :=
  match a with
  | ArgBool b => Bool.eqb flag b
  | ArgStr s =>
      match parse_available s with
      | Some b => Bool.eqb flag b
      | None => false
      end
  end.

(** Modelled from the spec: [Product.find_by_availability], whose
    source is absent.  "Returns all products whose availability flag
    matches (input may be a string "true"/"false" that must be parsed
    to boolean)."  A text that is neither matches no flag. *)
Definition find_by_availability (db : Database Category) (a : AvailableArg) :
  list (Product Category) :=
  List.filter (fun p => available_matches a (available p)) (Product_all db).

(** Modelled from the spec: [Product.find_by_price], whose source is
    absent.  "Returns all products whose price exactly matches
    (decimal comparison)." *)
Definition find_by_price (db : Database Category) (d : Decimal) : list (Product Category) :=
  List.filter (fun p => Decimal_eqb (price p) d) (Product_all db).

(** *** The routes of [service/routes.py] *)

(** [check_content_type]: "Checks that the media type is correct". *)
Definition check_content_type (req : Request) (content_type : string) : Handler unit :=
  match content_type_header req with
  | None =>
      abort HTTP_415_UNSUPPORTED_MEDIA_TYPE ("Content-Type must be " ++ content_type)
  | Some v =>
      if String.eqb v content_type then h_ret tt
      else abort HTTP_415_UNSUPPORTED_MEDIA_TYPE ("Content-Type must be " ++ content_type)
  end.

(** [request.get_json()], called once [check_content_type] has found
    the content type to be JSON: the decoded body, whatever value it
    is, or the library's [BadRequest] when the body does not decode. *)
Definition get_json (req : Request) : Handler PyJson :=
  match json_body req with
  | Decoded data => h_ret data
  | Undecodable description => abort HTTP_400_BAD_REQUEST description
  end.

(** [POST /products] *)
Definition create_products (req : Request) : Handler Response :=
  exec check_content_type req "application/json" in
  let* data := get_json req in
  let* product := attempt (deserialize_json None data) in
  let* product := Product_create product in
  let message := serialize product in
  let location_url := "/" in
  h_ret {| status := HTTP_201_CREATED;
           body := JsonObject message;
           headers := [("Location", location_url)] |}.

(** The products a [GET /products] request selects: the
    [if]/[elif]/[else] chain over the three query parameters. *)
Definition select_products (req : Request) : Handler (list (Product Category)) :=
  let searched_name := args_get "name" (args req) in
  let searched_category := args_get "category" (args req) in
  let searched_availabe := args_get "available" (args req) in
  if truthy searched_name then
    query (fun db => find_by_name db (default "" searched_name))
  else if truthy searched_category then
    let* category := attempt (Category_getattr (str_upper (default "" searched_category))) in
    query (fun db => find_by_category db category)
  else if truthy searched_availabe then
    query (fun db => find_by_availability db (ArgStr (default "" searched_availabe)))
  else
    query Product_all.

(** [GET /products] *)
Definition read_all_products (req : Request) : Handler Response :=
  let* products := select_products req in
  let message := List.map serialize products in
  h_ret {| status := HTTP_200_OK; body := JsonArray message; headers := [] |}.

(** What [str(id)] is for Python's built-in function [id]. *)
Definition builtin_id_repr : string := "<built-in function id>".

(** The f-string [f"product with id:{id} not found"] of the three
    routes below.  No local [id] is bound there, so the name is the
    built-in; the route's argument is [product_id]. *)
Definition not_found_message (product_id : string) : string :=
  "product with id:" ++ builtin_id_repr ++ " not found".

(** [GET /products/<product_id>] *)
Definition read_product (product_id : string) : Handler Response :=
  let* product := query (fun db => Product_find_text db product_id) in
  match product with
  | None =>
      let message := not_found_message product_id in
      h_ret {| status := HTTP_404_NOT_FOUND; body := JsonString message; headers := [] |}
  | Some product =>
      let message := serialize product in
      h_ret {| status := HTTP_200_OK; body := JsonObject message; headers := [] |}
  end.

(** [PUT /products/<product_id>] *)
Definition update_products (product_id : string) (req : Request) : Handler Response :=
  exec check_content_type req "application/json" in
  let* data := get_json req in
  let* product := query (fun db => Product_find_text db product_id) in
  match product with
  | None =>
      let message := not_found_message product_id in
      h_ret {| status := HTTP_404_NOT_FOUND; body := JsonString message; headers := [] |}
  | Some product =>
      let* product := attempt (deserialize_json (id product) data) in
      exec Product_update product in
      let message := serialize product in
      let location_url := "/" in
      h_ret {| status := HTTP_200_OK;
               body := JsonObject message;
               headers := [("Location", location_url)] |}
  end.

(** [DELETE /products/<product_id>] *)
Definition delete_products (product_id : string) : Handler Response :=
  let* product := query (fun db => Product_find_text db product_id) in
  match product with
  | None =>
      let message := not_found_message product_id in
      h_ret {| status := HTTP_404_NOT_FOUND; body := JsonString message; headers := [] |}
  | Some product =>
      exec Product_delete product in
      h_ret {| status := HTTP_204_NO_CONTENT; body := BodyText ""; headers := [] |}
  end.

(** *** From a handler's outcome to the response sent *)

(** Modelled from the spec: the error handlers registered on the
    application, whose source is absent.  "Validation failure →
    descriptive message + 400", "Missing/incorrect content type → 415";
    an [abort] is answered with its own code, and any other exception
    "propagates as a server error (5xx)". *)
Definition error_response (e : Exn) : Response :=
  match e with
  | HTTPException code description =>
      {| status := code; body := BodyText description; headers := [] |}
  | DataValidationError why =>
      {| status := HTTP_400_BAD_REQUEST; body := BodyText "Bad Request"; headers := [] |}
  | AttributeError attr =>
      {| status := HTTP_500_INTERNAL_SERVER_ERROR;
         body := BodyText "Internal Server Error"; headers := [] |}
  end.

(** One request served: the response sent and the database left
    behind. *)
Definition serve (h : Handler Response) (db : Database Category) :
  Response * Database Category :=
  match h db with
  | (inr r, db') => (r, db')
  | (inl e, db') => (error_response e, db')
  end.

(** The parameter a [GET /products] request effectively gives: a
    missing parameter and one with the empty string count the same. *)
Definition effective (o : option string) : option string :=
  match o with
  | Some (String c rest) => Some (String c rest)
  | _ => None
  end.

(** The answer of [GET /products] for a list of products. *)
Definition listing (products : list (Product Category)) : Response :=
  {| status := HTTP_200_OK; body := JsonArray (List.map serialize products); headers := [] |}.

(** The exception both write routes raise on a wrong media type. *)
Definition unsupported_media_type : Exn :=
  HTTPException HTTP_415_UNSUPPORTED_MEDIA_TYPE "Content-Type must be application/json".

(** [GET /health]: "Let them know our heart is still beating". *)
Definition healthcheck : Handler Response :=
  h_ret {| status := HTTP_200_OK;
           body := JsonObject (<["status" := VNum (Decimal_of_nat 200)]>
                               (<["message" := VStr "OK"]> ∅));
           headers := [] |}.

(** The loop of [test_all_products] and of the [find_by] tests: the
    products are created one after the other. *)
Fixpoint create_each (ps : list (Product Category)) : Handler unit :=
  match ps with
  | [] => h_ret tt
  | p :: rest => exec Product_create p in create_each rest
  end.

(** A call of one of the five product routes. *)
Inductive Call : Type :=
| CallCreate (req : Request)
| CallReadAll (req : Request)
| CallRead (product_id : string)
| CallUpdate (product_id : string) (req : Request)
| CallDelete (product_id : string).

Definition handle (c : Call) : Handler Response :=
  match c with
  | CallCreate req => create_products req
  | CallReadAll req => read_all_products req
  | CallRead product_id => read_product product_id
  | CallUpdate product_id req => update_products product_id req
  | CallDelete product_id => delete_products product_id
  end.

(** The database after the calls were served one after the other. *)
Fixpoint serve_all (calls : list Call) (db : Database Category) : Database Category :=
  match calls with
  | [] => db
  | c :: rest => serve_all rest (snd (serve (handle c) db))
  end.

(** The keys [deserialize] reads. *)
Definition required_keys : list string :=
  ["name"; "description"; "price"; "available"; "category"].

End Service.

(** ** Concrete inputs *)

(** A two-member enumeration on which the development is run.
    [CLOTHS] is the member the tests and the specification's scenario
    name; the second member only gives the examples something to tell
    apart. *)
Inductive SampleCategory : Type := CLOTHS | FOOD.

#[global] Instance SampleCategory_eq_dec : EqDecision SampleCategory.
Proof. solve_decision. Defined.

#[global] Instance SampleCategory_enum : CategoryEnum SampleCategory := {|
  Category_members := [CLOTHS; FOOD];
  Category_name := fun c => match c with CLOTHS => "CLOTHS" | FOOD => "FOOD" end
|}.

(** ASCII upper-casing stands for [str.upper] on the concrete inputs,
    all of them ASCII. *)
Definition ascii_str_upper : StrUpper := string_upper.

(** The payload of the specification's scenario. *)
Definition fedora_payload : Payload :=
  <["name" := VStr "Fedora"]>
  (<["description" := VStr "A red hat"]>
  (<["price" := VNum {| unscaled := 1250; scale := 2 |}]>
  (<["available" := VBool true]>
  (<["category" := VStr "CLOTHS"]> ∅)))).

(** The product of [test_create_a_product], not yet persisted. *)
Definition fedora : Product SampleCategory :=
  {| id := None; name := "Fedora"; description := "A red hat";
     price := {| unscaled := 1250; scale := 2 |};
     available := true; category := CLOTHS |}.

(** The body of the specification's scenario as [request.get_json()]
    decodes it: the number written [12.50] is the float [12.5], that
    is [25 * 2 ^ (-1)]. *)
Definition fedora_json : PyJson :=
  JDict (<["name" := JStr "Fedora"]>
        (<["description" := JStr "A red hat"]>
        (<["price" := JFloat (Finite 25 (-1))]>
        (<["available" := JBool true]>
        (<["category" := JStr "CLOTHS"]> ∅))))).

(** The product that body deserializes to: the price is the decimal
    [12.5]. *)
Definition fedora_received : Product SampleCategory :=
  {| id := None; name := "Fedora"; description := "A red hat";
     price := {| unscaled := 125; scale := 1 |};
     available := true; category := CLOTHS |}.

(** A request without a body. *)
Definition no_body : JsonBody := Undecodable "".

Definition json_request : Request :=
  {| content_type_header := Some "application/json";
     json_body := Decoded fedora_json;
     args := [] |}.

Definition text_request : Request :=
  {| content_type_header := Some "text/plain";
     json_body := Decoded fedora_json;
     args := [] |}.

(** [GET /products?category=shoes] *)
Definition shoes_request : Request :=
  {| content_type_header := None;
     json_body := no_body;
     args := [("category", "shoes")] |}.

(** [GET /products?name=Fedora&category=shoes] *)
Definition fedora_shoes_request : Request :=
  {| content_type_header := None;
     json_body := no_body;
     args := [("name", "Fedora"); ("category", "shoes")] |}.

(** [GET /products?category=] *)
Definition empty_category_request : Request :=
  {| content_type_header := None;
     json_body := no_body;
     args := [("category", "")] |}.

(** The database after [fedora] was created in an empty one. *)
Definition one_product_db : Database SampleCategory :=
  snd (Product_create fedora empty_db).

(** The change of [test_update_product], as a decoded body. *)
Definition fedora_put_json : PyJson :=
  JDict (<["name" := JStr "Fedora"]>
        (<["description" := JStr "Just a simple description to test with hola"]>
        (<["price" := JFloat (Finite 25 (-1))]>
        (<["available" := JBool true]>
        (<["category" := JStr "CLOTHS"]> ∅))))).

Definition put_request : Request :=
  {| content_type_header := Some "application/json";
     json_body := Decoded fedora_put_json;
     args := [] |}.

(** What [put_request] makes of the product stored under id 1. *)
Definition fedora_put_result : Product SampleCategory :=
  {| id := Some 1; name := "Fedora";
     description := "Just a simple description to test with hola";
     price := {| unscaled := 125; scale := 1 |};
     available := true; category := CLOTHS |}.

(** [fedora] with the description [put_request] gives it, as stored
    under id 1. *)
Definition fedora_updated : Product SampleCategory :=
  {| id := Some 1; name := "Fedora";
     description := "Just a simple description to test with hola";
     price := {| unscaled := 1250; scale := 2 |};
     available := true; category := CLOTHS |}.

(** [GET /products?category=cloths] and [GET /products?category=Cloths] *)
Definition cloths_request : Request :=
  {| content_type_header := None; json_body := no_body;
     args := [("category", "cloths")] |}.

Definition Cloths_request : Request :=
  {| content_type_header := None; json_body := no_body;
     args := [("category", "Cloths")] |}.

(** ** Properties *)

Section Properties.

Context {Category : Type} {enum : CategoryEnum Category} {upper : StrUpper}.

(** *** The enumeration *)

Lemma Category_getattr_inr (s : string) (c : Category) :
  Category_getattr s = inr c -> Category_name c = s /\ In c Category_members.
Proof.
  unfold Category_getattr.
  destruct (List.find _ Category_members) as [c'|] eqn:Hfind; [|discriminate].
  intros [= <-].
  apply find_some in Hfind as [Hin Heq].
  apply String.eqb_eq in Heq. auto.
Qed.

Lemma Category_getattr_unknown (s : string) :
  (forall c, In c Category_members -> Category_name c <> s) ->
  Category_getattr s = inl (AttributeError s).
Proof.
  intros Hno. unfold Category_getattr.
  destruct (List.find _ Category_members) as [c|] eqn:Hfind; [|reflexivity].
  apply find_some in Hfind as [Hin Heq].
  apply String.eqb_eq in Heq. destruct (Hno c Hin Heq).
Qed.

Lemma Category_getattr_member (c : Category) :
  (forall a b, In a Category_members -> In b Category_members ->
               Category_name a = Category_name b -> a = b) ->
  In c Category_members ->
  Category_getattr (Category_name c) = inr c.
Proof.
  intros Hinj Hin. unfold Category_getattr.
  destruct (List.find _ Category_members) as [c'|] eqn:Hfind.
  - apply find_some in Hfind as [Hin' Heq].
    apply String.eqb_eq in Heq. f_equal. auto.
  - exfalso. eapply find_none in Hfind; [|exact Hin].
    simpl in Hfind. rewrite String.eqb_refl in Hfind. discriminate.
Qed.

(** *** Decimals *)

Lemma Decimal_eqb_refl (d : Decimal) : Decimal_eqb d d = true.
Proof. unfold Decimal_eqb. apply Z.eqb_refl. Qed.

Lemma Decimal_eqb_true (a b : Decimal) :
  Decimal_eqb a b = true <->
  (unscaled a * 10 ^ Z.of_nat (scale b) = unscaled b * 10 ^ Z.of_nat (scale a))%Z.
Proof. unfold Decimal_eqb. apply Z.eqb_eq. Qed.

(** *** Deserialization *)

Lemma deserialize_inr (self_id : option nat) (data : Payload) (p : Product Category) :
  deserialize self_id data = inr p ->
  id p = self_id /\
  data !! "name" = Some (VStr (name p)) /\
  data !! "description" = Some (VStr (description p)) /\
  data !! "price" = Some (VNum (price p)) /\
  data !! "available" = Some (VBool (available p)) /\
  data !! "category" = Some (VStr (Category_name (category p))).
Proof.
  unfold deserialize, get_str, get_num, get_bool, category_of_name, and_then.
  intros H.
  destruct (data !! "name") as [[| | |n|]|]; try discriminate.
  destruct (data !! "description") as [[| | |d|]|]; try discriminate.
  destruct (data !! "price") as [[| |pr| |]|]; try discriminate.
  destruct (data !! "available") as [[|a| | |]|]; try discriminate.
  destruct (data !! "category") as [[| | |s|]|]; try discriminate.
  destruct (Category_getattr s) as [e|c] eqn:Hc; try discriminate.
  injection H as <-. simpl.
  apply Category_getattr_inr in Hc as [-> _]. auto 10.
Qed.

Lemma serialize_lookups (p : Product Category) :
  serialize p !! "id" = Some (id_value (id p)) /\
  serialize p !! "name" = Some (VStr (name p)) /\
  serialize p !! "description" = Some (VStr (description p)) /\
  serialize p !! "price" = Some (VNum (price p)) /\
  serialize p !! "available" = Some (VBool (available p)) /\
  serialize p !! "category" = Some (VStr (Category_name (category p))).
Proof. unfold serialize. repeat split; by simplify_map_eq. Qed.

(** *** The store *)

Lemma Product_find_create (db : Database Category) (p : Product Category) :
  Product_find (snd (Product_create p db)) (next_id db) = Some (with_id (Some (next_id db)) p).
Proof.
  unfold Product_find, Product_create. simpl.
  by rewrite lookup_insert_eq.
Qed.

Lemma Product_create_wf (db : Database Category) (p : Product Category) :
  db_wf db -> db_wf (snd (Product_create p db)).
Proof.
  intros Hwf i q. unfold Product_create. simpl.
  destruct (decide (next_id db = i)) as [<-|Hne].
  - intros _. lia.
  - rewrite lookup_insert_ne by done. intros Hq. apply Hwf in Hq. lia.
Qed.

Lemma Product_create_keeps (db : Database Category) (p : Product Category) (i : nat) :
  db_wf db -> is_Some (table db !! i) ->
  Product_find (snd (Product_create p db)) i = Product_find db i.
Proof.
  intros Hwf [q Hq]. unfold Product_find, Product_create. simpl.
  rewrite lookup_insert_ne; [done|].
  apply Hwf in Hq. lia.
Qed.

Lemma In_Product_all (db : Database Category) (p : Product Category) :
  In p (Product_all db) <-> exists i, id p = Some i /\ Product_find db i = Some p.
Proof.
  unfold Product_all, Product_find. rewrite <- list_elem_of_In, list_elem_of_fmap.
  split.
  - intros [[i q] [-> Hin]]. apply elem_of_map_to_list in Hin.
    exists i. simpl. by rewrite Hin.
  - intros [i [Hid Hfind]].
    destruct (table db !! i) as [q|] eqn:Hq; [|discriminate].
    injection Hfind as <-. exists (i, q). split; [done|].
    by apply elem_of_map_to_list.
Qed.

(** C3 (from the specification): for every payload [P] that
    [deserialize] accepts, [create] assigns an id that is not null, and
    [find] on that id returns an entity whose name, description, price,
    available and category are the ones [P] carries. *)
Theorem create_deserialized_then_find (db : Database Category) (P : Payload)
  (p : Product Category) :
  deserialize None P = inr p ->
  exists (i : nat) (p' : Product Category) (db' : Database Category),
    Product_create p db = (inr p', db') /\
    id p' = Some i /\
    exists q, Product_find db' i = Some q /\
      P !! "name" = Some (VStr (name q)) /\
      P !! "description" = Some (VStr (description q)) /\
      P !! "price" = Some (VNum (price q)) /\
      P !! "available" = Some (VBool (available q)) /\
      P !! "category" = Some (VStr (Category_name (category q))).
Proof.
  intros Hd. apply deserialize_inr in Hd as (_ & Hn & Hde & Hp & Ha & Hc).
  exists (next_id db), (with_id (Some (next_id db)) p), (snd (Product_create p db)).
  split; [reflexivity|]. split; [reflexivity|].
  exists (with_id (Some (next_id db)) p).
  split; [apply Product_find_create|]. simpl. auto 10.
Qed.

(** C4 (from the specification): each of [find_by_name],
    [find_by_category], [find_by_availability] and [find_by_price]
    returns exactly the products of [all()] whose field equals the
    filter value: a product is in the result if and only if it is in
    [all()] and matches.  Prices are compared as decimals; the
    availability filter is given as a boolean or as the text ["true"]
    or ["false"]. *)
Theorem find_by_exact_subset (db : Database Category) (p : Product Category) :
  (forall n, In p (find_by_name db n) <-> In p (Product_all db) /\ name p = n) /\
  (forall c, In p (find_by_category db c) <-> In p (Product_all db) /\ category p = c) /\
  (forall b, In p (find_by_availability db (ArgBool b)) <->
             In p (Product_all db) /\ available p = b) /\
  (In p (find_by_availability db (ArgStr "true")) <->
     In p (Product_all db) /\ available p = true) /\
  (In p (find_by_availability db (ArgStr "false")) <->
     In p (Product_all db) /\ available p = false) /\
  (forall d, In p (find_by_price db d) <->
             In p (Product_all db) /\ Decimal_eqb (price p) d = true).
Proof.
  unfold find_by_name, find_by_category, find_by_availability, find_by_price.
  split; [|split; [|split; [|split; [|split]]]]; intros; rewrite filter_In; simpl.
  - rewrite String.eqb_eq. tauto.
  - rewrite bool_decide_eq_true. tauto.
  - rewrite Bool.eqb_true_iff. tauto.
  - rewrite Bool.eqb_true_iff. tauto.
  - rewrite Bool.eqb_true_iff. tauto.
  - tauto.
Qed.

(** C7 (from the specification): [update] on a product whose id is
    null raises [DataValidationError] and leaves the database as it
    was. *)
Theorem update_without_id_fails (db : Database Category) (p : Product Category) :
  id p = None ->
  Product_update p db = (inl (DataValidationError EmptyId), db).
Proof. intros Hid. unfold Product_update. by rewrite Hid. Qed.

(** C8 (from the specification): [deserialize(serialize(p))] gives back
    [p]'s name, description, price, available and category; the price
    comes back as the same decimal, digits and scale alike.  The
    enumeration's invariants are assumed: member names are distinct and
    [p]'s category is a member. *)
Theorem deserialize_serialize (self_id : option nat) (p : Product Category) :
  (forall a b, In a Category_members -> In b Category_members ->
               Category_name a = Category_name b -> a = b) ->
  In (category p) Category_members ->
  exists q, deserialize self_id (serialize p) = inr q /\
    id q = self_id /\
    name q = name p /\
    description q = description p /\
    price q = price p /\
    available q = available p /\
    category q = category p.
Proof.
  intros Hinj Hin.
  destruct (serialize_lookups p) as (_ & Hn & Hd & Hp & Ha & Hc).
  exists (with_id self_id p).
  unfold deserialize, get_str, get_num, get_bool, category_of_name, and_then.
  rewrite Hn, Hd, Hp, Ha, Hc, (Category_getattr_member _ Hinj Hin).
  repeat split.
Qed.

(** *** The routes *)

Lemma check_content_type_json (req : Request) (db : Database Category) :
  content_type_header req = Some "application/json" ->
  check_content_type req "application/json" db = (inr tt, db).
Proof. intros H. unfold check_content_type. by rewrite H. Qed.

Lemma check_content_type_other (req : Request) (db : Database Category) :
  content_type_header req <> Some "application/json" ->
  check_content_type req "application/json" db = (inl unsupported_media_type, db).
Proof.
  intros H. unfold check_content_type.
  destruct (content_type_header req) as [v|]; [|reflexivity].
  destruct (String.eqb_spec v "application/json") as [->|Hne]; [by destruct H|reflexivity].
Qed.

Lemma Product_find_text_Some (db : Database Category) (product_id : string)
  (p : Product Category) :
  Product_find_text db product_id = Some p ->
  exists i, id_of_text product_id = Some i /\ id p = Some i /\ is_Some (table db !! i).
Proof.
  unfold Product_find_text, Product_find.
  destruct (id_of_text product_id) as [i|]; [|discriminate].
  destruct (table db !! i) as [q|] eqn:Hq; [|discriminate].
  intros [= <-]. exists i. eauto.
Qed.

Lemma read_product_missing (db : Database Category) (product_id : string) :
  Product_find_text db product_id = None ->
  read_product product_id db =
    (inr {| status := HTTP_404_NOT_FOUND;
            body := JsonString "product with id:<built-in function id> not found";
            headers := [] |}, db).
Proof.
  intros Hfind. unfold read_product, h_bind, query, h_ret.
  by rewrite Hfind.
Qed.

Lemma not_found_message_constant (a b : string) :
  not_found_message a = not_found_message b.
Proof. reflexivity. Qed.

(** C1, as the code has it: [DELETE /products/<product_id>] answers 204
    with an empty body when a product with that id exists, and the
    product is gone afterwards; when no product with that id exists it
    answers 404 and leaves the database as it was. *)
Theorem delete_products_outcome (db : Database Category) (product_id : string) :
  match Product_find_text db product_id with
  | Some _ =>
      exists db',
        delete_products product_id db =
          (inr {| status := HTTP_204_NO_CONTENT; body := BodyText ""; headers := [] |}, db') /\
        Product_find_text db' product_id = None
  | None =>
      exists r,
        delete_products product_id db = (inr r, db) /\ status r = HTTP_404_NOT_FOUND
  end.
Proof.
  destruct (Product_find_text db product_id) as [p|] eqn:Hfind.
  - destruct (Product_find_text_Some _ _ _ Hfind) as (i & Htext & Hid & _).
    exists {| table := delete i (table db); next_id := next_id db |}.
    unfold delete_products, h_bind, query, Product_delete, h_ret.
    rewrite Hfind, Hid. split; [reflexivity|].
    unfold Product_find_text, Product_find. rewrite Htext. simpl.
    by rewrite lookup_delete_eq.
  - eexists. unfold delete_products, h_bind, query, h_ret.
    rewrite Hfind. split; reflexivity.
Qed.

(** C5: on [POST /products] and [PUT /products/<id>], when the
    Content-Type header is absent or is not [application/json] the
    handler aborts with 415 and the database is the one it started
    from; the response sent has status 415. *)
Theorem wrong_content_type_is_415 (db : Database Category) (req : Request)
  (product_id : string) :
  content_type_header req <> Some "application/json" ->
  create_products req db = (inl unsupported_media_type, db) /\
  update_products product_id req db = (inl unsupported_media_type, db) /\
  status (fst (serve (create_products req) db)) = HTTP_415_UNSUPPORTED_MEDIA_TYPE /\
  snd (serve (create_products req) db) = db /\
  status (fst (serve (update_products product_id req) db)) = HTTP_415_UNSUPPORTED_MEDIA_TYPE /\
  snd (serve (update_products product_id req) db) = db.
Proof.
  intros H.
  assert (Hc : create_products req db = (inl unsupported_media_type, db)).
  { unfold create_products, h_bind. by rewrite check_content_type_other. }
  assert (Hu : update_products product_id req db = (inl unsupported_media_type, db)).
  { unfold update_products, h_bind. by rewrite check_content_type_other. }
  unfold serve. rewrite Hc, Hu. repeat split.
Qed.




Lemma deserialize_json_inr (self_id : option nat) (data : PyJson) (p : Product Category) :
  deserialize_json self_id data = inr p ->
  exists d : gmap string PyJson,
    data = JDict d /\ deserialize self_id (value_of_json <$> d) = inr p.
Proof.
  unfold deserialize_json.
  destruct data as [|b|z|f|s|l|d]; simpl; try discriminate. eauto.
Qed.

Lemma deserialize_json_id (self_id : option nat) (data : PyJson) (p : Product Category) :
  deserialize_json self_id data = inr p -> id p = self_id.
Proof.
  intros Hd. apply deserialize_json_inr in Hd as (d & _ & Hd).
  by apply deserialize_inr in Hd as (Hid & _).
Qed.

Lemma create_products_ok (db : Database Category) (req : Request) (data : PyJson)
  (p : Product Category) :
  content_type_header req = Some "application/json" ->
  json_body req = Decoded data ->
  deserialize_json None data = inr p ->
  create_products req db =
    (inr {| status := HTTP_201_CREATED;
            body := JsonObject (serialize (with_id (Some (next_id db)) p));
            headers := [("Location", "/")] |},
     snd (Product_create p db)).
Proof.
  intros Hct Hjson Hd.
  unfold create_products, h_bind, get_json, attempt, h_ret.
  rewrite check_content_type_json by done. by rewrite Hjson, Hd.
Qed.


Lemma effective_truthy (o : option string) :
  truthy o = match effective o with Some _ => true | None => false end.
Proof. by destruct o as [[|c rest]|]. Qed.

Lemma effective_default (o : option string) (s : string) :
  effective o = Some s -> default "" o = s.
Proof. destruct o as [[|c rest]|]; simpl; congruence. Qed.

Lemma effective_None (o : option string) :
  effective o = None <-> o = None \/ o = Some "".
Proof.
  destruct o as [[|c rest]|]; simpl; split; intros H; try done; auto.
  destruct H as [H|H]; discriminate.
Qed.

Lemma read_all_products_chain (req : Request) (db : Database Category) :
  read_all_products req db =
    match effective (args_get "name" (args req)),
          effective (args_get "category" (args req)),
          effective (args_get "available" (args req)) with
    | Some n, _, _ => (inr (listing (find_by_name db n)), db)
    | None, Some c, _ =>
        match Category_getattr (str_upper c) with
        | inr cat => (inr (listing (find_by_category db cat)), db)
        | inl e => (inl e, db)
        end
    | None, None, Some a => (inr (listing (find_by_availability db (ArgStr a))), db)
    | None, None, None => (inr (listing (Product_all db)), db)
    end.
Proof.
  unfold read_all_products, select_products, h_bind, query, attempt, h_ret, listing.
  rewrite !effective_truthy.
  destruct (effective (args_get "name" (args req))) as [n|] eqn:Hn.
  { by rewrite (effective_default _ _ Hn). }
  destruct (effective (args_get "category" (args req))) as [c|] eqn:Hc.
  { rewrite (effective_default _ _ Hc).
    by destruct (Category_getattr (str_upper c)). }
  destruct (effective (args_get "available" (args req))) as [a|] eqn:Ha.
  { by rewrite (effective_default _ _ Ha). }
  reflexivity.
Qed.

(** C10: [GET /products] applies at most one filter.  A parameter
    that is missing or empty is not effective.  With an effective
    [name] the answer lists [find_by_name] whatever [category] and
    [available] are; failing that, with an effective [category] the
    answer is decided by the category lookup alone; failing that, with
    an effective [available] it lists [find_by_availability]; with no
    effective parameter it lists all products. *)
Theorem read_all_products_one_filter (req : Request) (db : Database Category) :
  (forall o, effective o = None <-> o = None \/ o = Some "") /\
  read_all_products req db =
    match effective (args_get "name" (args req)),
          effective (args_get "category" (args req)),
          effective (args_get "available" (args req)) with
    | Some n, _, _ => (inr (listing (find_by_name db n)), db)
    | None, Some c, _ =>
        match Category_getattr (str_upper c) with
        | inr cat => (inr (listing (find_by_category db cat)), db)
        | inl e => (inl e, db)
        end
    | None, None, Some a => (inr (listing (find_by_availability db (ArgStr a))), db)
    | None, None, None => (inr (listing (Product_all db)), db)
    end.
Proof. split; [apply effective_None | apply read_all_products_chain]. Qed.

(** C9: on [GET /products] without an effective [name], when the
    [category] parameter is not empty and its upper-cased text names no
    member of [Category], [getattr] raises an [AttributeError] that
    leaves the handler; the response sent is a 500, not a 400. *)
Theorem unknown_category_raises (req : Request) (db : Database Category) (s : string) :
  effective (args_get "name" (args req)) = None ->
  args_get "category" (args req) = Some s ->
  s <> "" ->
  (forall c, In c Category_members -> Category_name c <> str_upper s) ->
  read_all_products req db = (inl (AttributeError (str_upper s)), db) /\
  status (fst (serve (read_all_products req) db)) = HTTP_500_INTERNAL_SERVER_ERROR /\
  status (fst (serve (read_all_products req) db)) <> HTTP_400_BAD_REQUEST.
Proof.
  intros Hn Hc Hs Hno.
  assert (Hr : read_all_products req db = (inl (AttributeError (str_upper s)), db)).
  { rewrite read_all_products_chain, Hn, Hc.
    destruct s as [|c rest]; [done|]. simpl.
    by rewrite Category_getattr_unknown. }
  unfold serve. rewrite Hr. simpl. repeat split. discriminate.
Qed.

(** *** Further properties of the store *)

Lemma with_id_same (p : Product Category) (i : option nat) :
  id p = i -> with_id i p = p.
Proof. destruct p. simpl. by intros <-. Qed.

Lemma db_wf_empty : db_wf (@empty_db Category).
Proof. intros i p. unfold empty_db. simpl. by rewrite lookup_empty. Qed.

Lemma db_wf_fresh (db : Database Category) :
  db_wf db -> table db !! next_id db = None.
Proof.
  intros Hwf. destruct (table db !! next_id db) as [p|] eqn:Hp; [|done].
  apply Hwf in Hp. lia.
Qed.

Lemma length_Product_all (db : Database Category) :
  length (Product_all db) = size (table db).
Proof. unfold Product_all. by rewrite length_fmap, length_map_to_list. Qed.

(** [test_all_products], [test_add_a_product]: creating the products of
    a list one after the other succeeds, and [all()] then holds one
    more product for each of them; ids keep being handed out in
    order. *)
Theorem create_each_adds_each (ps : list (Product Category)) (db : Database Category) :
  db_wf db ->
  fst (create_each ps db) = inr tt /\
  db_wf (snd (create_each ps db)) /\
  length (Product_all (snd (create_each ps db))) = length (Product_all db) + length ps /\
  next_id (snd (create_each ps db)) = next_id db + length ps.
Proof.
  revert db. induction ps as [|p rest IH]; intros db Hwf.
  - simpl. repeat split; [done|lia|lia].
  - pose proof (Product_create_wf db p Hwf) as Hwf'.
    destruct (IH _ Hwf') as (Hok & Hwf'' & Hlen & Hnext).
    change (create_each (p :: rest) db)
      with (create_each rest (snd (Product_create p db))).
    repeat split; [done|done| |].
    + rewrite Hlen, !length_Product_all. unfold Product_create. simpl.
      rewrite map_size_insert_None by by apply db_wf_fresh. lia.
    + rewrite Hnext. unfold Product_create. simpl. lia.
Qed.

(** [test_delete_product]: a product created and then deleted leaves
    the table as it was before, so [all()] is what it was and the id
    it had finds nothing. *)
Theorem create_then_delete_restores (db : Database Category) (p : Product Category) :
  db_wf db ->
  exists (p' : Product Category) (db1 db2 : Database Category),
    Product_create p db = (inr p', db1) /\
    Product_delete p' db1 = (inr tt, db2) /\
    id p' = Some (next_id db) /\
    table db2 = table db /\
    Product_all db2 = Product_all db /\
    Product_find db2 (next_id db) = None.
Proof.
  intros Hwf. pose proof (db_wf_fresh db Hwf) as Hfresh.
  eexists _, _, _. split; [reflexivity|]. split; [reflexivity|].
  assert (Ht : delete (next_id db)
                 (<[next_id db := with_id (Some (next_id db)) p]> (table db)) = table db).
  { by rewrite delete_insert_eq, delete_id. }
  simpl. rewrite Ht. repeat split.
  unfold Product_find. simpl. by rewrite Hfresh.
Qed.

(** [test_update_product]: [update] on a product that carries the id of
    a stored row succeeds; [find] on that id then returns the product
    as updated, and [all()] holds as many products as before. *)
Theorem update_then_find (db : Database Category) (p : Product Category) (i : nat) :
  id p = Some i ->
  is_Some (table db !! i) ->
  exists db' : Database Category,
    Product_update p db = (inr tt, db') /\
    Product_find db' i = Some p /\
    length (Product_all db') = length (Product_all db) /\
    forall j, j <> i -> Product_find db' j = Product_find db j.
Proof.
  intros Hid [q Hq]. unfold Product_update. rewrite Hid.
  eexists. split; [reflexivity|].
  unfold Product_find. simpl. repeat split.
  - rewrite lookup_alter_eq, Hq. simpl. by rewrite with_id_same.
  - rewrite !length_Product_all. simpl.
    by rewrite <- !size_dom, dom_alter_L.
  - intros j Hj. by rewrite lookup_alter_ne.
Qed.

(** [test_desirialize_invalid_product]: whatever the payload,
    [deserialize] either raises a [DataValidationError] or returns a
    product that keeps the id of the object it was called on; it
    succeeds only when the payload holds all five keys. *)
Theorem deserialize_rejects (self_id : option nat) (data : Payload) :
  match deserialize self_id data with
  | inl e => exists why, e = DataValidationError why
  | inr p => id p = self_id /\ forall k, In k required_keys -> is_Some (data !! k)
  end.
Proof.
  destruct (deserialize self_id data) as [e|p] eqn:Hd.
  - revert Hd.
    unfold deserialize, get_str, get_num, get_bool, category_of_name, and_then.
    destruct (data !! "name") as [[| | |n|]|]; try (intros [= <-]; eauto; fail).
    destruct (data !! "description") as [[| | |d|]|]; try (intros [= <-]; eauto; fail).
    destruct (data !! "price") as [[| |pr| |]|]; try (intros [= <-]; eauto; fail).
    destruct (data !! "available") as [[|a| | |]|]; try (intros [= <-]; eauto; fail).
    destruct (data !! "category") as [[| | |s|]|]; try (intros [= <-]; eauto; fail).
    destruct (Category_getattr s); [|discriminate].
    intros [= <-]; eauto.
  - apply deserialize_inr in Hd as (Hi & Hn & Hde & Hp & Ha & Hc).
    split; [done|]. intros k Hk. simpl in Hk.
    destruct Hk as [<-|[<-|[<-|[<-|[<-|[]]]]]]; eauto.
Qed.

(** *** Further properties of the routes *)

Lemma check_content_type_decide (req : Request) (ct : string) (db : Database Category) :
  check_content_type req ct db =
    if bool_decide (content_type_header req = Some ct)
    then (inr tt, db)
    else (inl (HTTPException HTTP_415_UNSUPPORTED_MEDIA_TYPE
                 ("Content-Type must be " ++ ct)), db).
Proof.
  unfold check_content_type.
  destruct (content_type_header req) as [v|].
  - destruct (String.eqb_spec v ct) as [->|Hne].
    + by rewrite bool_decide_eq_true_2.
    + rewrite bool_decide_eq_false_2; [done|congruence].
  - by rewrite bool_decide_eq_false_2.
Qed.

(** [check_content_type] lets a request through exactly when its
    Content-Type header is, character for character, the expected media
    type; in every other case, the missing header included, it aborts
    with 415 and a description that names the expected type.  It never
    touches the database. *)
Theorem check_content_type_exact (req : Request) (ct : string) (db : Database Category) :
  (fst (check_content_type req ct db) = inr tt <-> content_type_header req = Some ct) /\
  snd (check_content_type req ct db) = db /\
  match fst (check_content_type req ct db) with
  | inr _ => True
  | inl e =>
      e = HTTPException HTTP_415_UNSUPPORTED_MEDIA_TYPE ("Content-Type must be " ++ ct)
  end.
Proof.
  rewrite check_content_type_decide.
  case_bool_decide; simpl; repeat split; try done.
Qed.

Lemma read_all_products_keeps_db (req : Request) (db : Database Category) :
  snd (read_all_products req db) = db.
Proof.
  rewrite read_all_products_chain.
  destruct (effective (args_get "name" (args req))); [done|].
  destruct (effective (args_get "category" (args req))) as [c|].
  { by destruct (Category_getattr (str_upper c)). }
  by destruct (effective (args_get "available" (args req))).
Qed.

Lemma read_product_keeps_db (product_id : string) (db : Database Category) :
  snd (read_product product_id db) = db.
Proof.
  unfold read_product, h_bind, query, h_ret.
  by destruct (Product_find_text db product_id).
Qed.

(** The three [GET] routes only read: whatever the request and whatever
    the outcome, an exception included, [healthcheck],
    [read_all_products] and [read_product] leave the database as it
    was. *)
Theorem get_routes_read_only (req : Request) (product_id : string) (db : Database Category) :
  snd (healthcheck db) = db /\
  snd (read_all_products req db) = db /\
  snd (read_product product_id db) = db.
Proof.
  split; [reflexivity|].
  split; [apply read_all_products_keeps_db | apply read_product_keeps_db].
Qed.

(** The category filter of [GET /products] sees its parameter only
    through [upper()]: two requests without an effective [name] whose
    [category] texts upper-case to the same text get the same answer. *)
Theorem category_filter_through_upper (req1 req2 : Request) (db : Database Category)
  (c1 c2 : string) :
  effective (args_get "name" (args req1)) = None ->
  effective (args_get "name" (args req2)) = None ->
  args_get "category" (args req1) = Some c1 -> c1 <> "" ->
  args_get "category" (args req2) = Some c2 -> c2 <> "" ->
  str_upper c1 = str_upper c2 ->
  read_all_products req1 db = read_all_products req2 db.
Proof.
  intros Hn1 Hn2 Hc1 Hne1 Hc2 Hne2 Hup.
  rewrite !read_all_products_chain, Hn1, Hn2, Hc1, Hc2.
  destruct c1 as [|a1 r1]; [done|]. destruct c2 as [|a2 r2]; [done|].
  simpl. by rewrite Hup.
Qed.

(** A write route commits nothing unless it succeeds.
    [create_products] changes the database only when it answers 201;
    [update_products] only when it answers 200: on a 404 and on every
    exception the database is the one the request started from. *)
Theorem write_routes_commit_on_success_only (req : Request) (product_id : string)
  (db : Database Category) :
  match fst (create_products req db) with
  | inr r => status r = HTTP_201_CREATED
  | inl _ => snd (create_products req db) = db
  end /\
  match fst (update_products product_id req db) with
  | inr r =>
      status r = HTTP_200_OK \/
      (status r = HTTP_404_NOT_FOUND /\ snd (update_products product_id req db) = db)
  | inl _ => snd (update_products product_id req db) = db
  end.
Proof.
  split.
  - unfold create_products, h_bind.
    rewrite check_content_type_decide. case_bool_decide; [|done].
    unfold get_json, abort, raise, attempt, h_ret.
    destruct (json_body req) as [data|description]; [|done].
    destruct (deserialize_json None data); done.
  - unfold update_products, h_bind.
    rewrite check_content_type_decide. case_bool_decide; [|done].
    unfold get_json, abort, raise, attempt, h_ret, query.
    destruct (json_body req) as [data|description]; [|done].
    destruct (Product_find_text db product_id) as [p0|]; [|by right].
    destruct (deserialize_json (id p0) data) as [e|p]; [done|].
    unfold Product_update. destruct (id p); [by left|done].
Qed.

Lemma update_products_found (db : Database Category) (req : Request) (product_id : string)
  (data : PyJson) (p0 p : Product Category) (i : nat) :
  content_type_header req = Some "application/json" ->
  json_body req = Decoded data ->
  Product_find_text db product_id = Some p0 ->
  id p0 = Some i ->
  deserialize_json (id p0) data = inr p ->
  update_products product_id req db =
    (inr {| status := HTTP_200_OK; body := JsonObject (serialize p);
            headers := [("Location", "/")] |},
     {| table := alter (fun _ => p) i (table db); next_id := next_id db |}).
Proof.
  intros Hct Hjson Hfind Hid Hd.
  pose proof (deserialize_json_id _ _ _ Hd) as Hidp.
  unfold update_products, h_bind, get_json, query, attempt, h_ret.
  rewrite check_content_type_json by done.
  rewrite Hjson, Hfind, Hd. unfold Product_update.
  by rewrite Hidp, Hid.
Qed.

(** [PUT /products/<product_id>] on a stored product with a payload
    that deserializes answers 200 with the serialized product, which
    keeps the id it had.  A [GET] on the same path then answers 200 with
    the same object, the number of products is unchanged, every other
    product is as it was, and sending the same [PUT] again changes
    nothing more. *)
Theorem update_then_read (db : Database Category) (req : Request) (product_id : string)
  (data : PyJson) (p0 p : Product Category) :
  content_type_header req = Some "application/json" ->
  json_body req = Decoded data ->
  Product_find_text db product_id = Some p0 ->
  deserialize_json (id p0) data = inr p ->
  exists db' : Database Category,
    update_products product_id req db =
      (inr {| status := HTTP_200_OK; body := JsonObject (serialize p);
              headers := [("Location", "/")] |}, db') /\
    id p = id p0 /\
    read_product product_id db' =
      (inr {| status := HTTP_200_OK; body := JsonObject (serialize p);
              headers := [] |}, db') /\
    length (Product_all db') = length (Product_all db) /\
    (forall j, id p0 <> Some j -> Product_find db' j = Product_find db j) /\
    update_products product_id req db' =
      (inr {| status := HTTP_200_OK; body := JsonObject (serialize p);
              headers := [("Location", "/")] |}, db').
Proof.
  intros Hct Hjson Hfind Hd.
  destruct (Product_find_text_Some _ _ _ Hfind) as (i & Htext & Hid & [q Hq]).
  pose proof (deserialize_json_id _ _ _ Hd) as Hidp.
  set (db' := {| table := alter (fun _ => p) i (table db); next_id := next_id db |}).
  assert (Hfind' : Product_find_text db' product_id = Some p).
  { unfold Product_find_text, Product_find. rewrite Htext. simpl.
    rewrite lookup_alter_eq, Hq. simpl. rewrite with_id_same; congruence. }
  exists db'. split; [by eapply update_products_found|].
  split; [done|]. split.
  { unfold read_product, h_bind, query, h_ret. by rewrite Hfind'. }
  split.
  { rewrite !length_Product_all. simpl. by rewrite <- !size_dom, dom_alter_L. }
  split.
  { intros j Hj. unfold Product_find. simpl.
    rewrite lookup_alter_ne; [done|congruence]. }
  assert (Hd' : deserialize_json (id p) data = inr p) by (by rewrite Hidp).
  rewrite (update_products_found db' req product_id data p p i Hct Hjson Hfind'
             ltac:(congruence) Hd').
  f_equal. unfold db'. simpl. f_equal.
  apply map_eq. intros j. destruct (decide (i = j)) as [<-|Hne].
  - rewrite !lookup_alter_eq. by destruct (table db !! i).
  - by rewrite !lookup_alter_ne.
Qed.

(** [POST /products] followed by [GET /products/<id>]: the 201
    response carries an id, and a [GET] on any path text that denotes
    this id answers 200 with the very object the [POST] answered. *)
Theorem create_then_read (db : Database Category) (req : Request) (data : PyJson)
  (p : Product Category) :
  content_type_header req = Some "application/json" ->
  json_body req = Decoded data ->
  deserialize_json None data = inr p ->
  exists (i : nat) (o : Payload) (db' : Database Category),
    create_products req db =
      (inr {| status := HTTP_201_CREATED; body := JsonObject o;
              headers := [("Location", "/")] |}, db') /\
    o !! "id" = Some (VNum (Decimal_of_nat i)) /\
    forall product_id, id_of_text product_id = Some i ->
      read_product product_id db' =
        (inr {| status := HTTP_200_OK; body := JsonObject o; headers := [] |}, db').
Proof.
  intros Hct Hjson Hd.
  exists (next_id db), (serialize (with_id (Some (next_id db)) p)),
         (snd (Product_create p db)).
  split.
  { by eapply create_products_ok. }
  split.
  { by destruct (serialize_lookups (with_id (Some (next_id db)) p)) as (-> & _). }
  intros product_id Htext.
  unfold read_product, h_bind, query, h_ret, Product_find_text.
  rewrite Htext, Product_find_create. reflexivity.
Qed.

(** [DELETE /products/<product_id>] on a stored product answers 204;
    after it a [GET] and a second [DELETE] on the same path both answer
    404, every other product is as it was, and the next id to hand out
    is unchanged. *)
Theorem delete_then_gone (db : Database Category) (product_id : string)
  (p : Product Category) :
  Product_find_text db product_id = Some p ->
  exists db' : Database Category,
    delete_products product_id db =
      (inr {| status := HTTP_204_NO_CONTENT; body := BodyText ""; headers := [] |}, db') /\
    status (fst (serve (read_product product_id) db')) = HTTP_404_NOT_FOUND /\
    status (fst (serve (delete_products product_id) db')) = HTTP_404_NOT_FOUND /\
    snd (serve (delete_products product_id) db') = db' /\
    (forall j, id p <> Some j -> Product_find db' j = Product_find db j) /\
    next_id db' = next_id db.
Proof.
  intros Hfind.
  destruct (Product_find_text_Some _ _ _ Hfind) as (i & Htext & Hid & _).
  set (db' := {| table := delete i (table db); next_id := next_id db |}).
  assert (Hgone : Product_find_text db' product_id = None).
  { unfold Product_find_text, Product_find. rewrite Htext. simpl.
    by rewrite lookup_delete_eq. }
  exists db'. split.
  { unfold delete_products, h_bind, query, Product_delete, h_ret.
    by rewrite Hfind, Hid. }
  unfold serve, read_product, delete_products, h_bind, query, h_ret.
  rewrite Hgone. repeat split.
  intros j Hj. unfold Product_find. simpl.
  rewrite lookup_delete_ne; [done|congruence].
Qed.

(** A path that names no stored product: [GET], [DELETE] and, once
    the content type is JSON and the body parses, [PUT] all answer 404
    with one and the same body, and none of them changes the database.
    [PUT] does so whatever the payload holds: it looks the product up
    before it deserializes. *)
Theorem missing_product_is_404 (db : Database Category) (req : Request)
  (product_id : string) (data : PyJson) :
  Product_find_text db product_id = None ->
  content_type_header req = Some "application/json" ->
  json_body req = Decoded data ->
  exists r : Response,
    status r = HTTP_404_NOT_FOUND /\
    read_product product_id db = (inr r, db) /\
    update_products product_id req db = (inr r, db) /\
    delete_products product_id db = (inr r, db).
Proof.
  intros Hfind Hct Hjson. eexists. split; [|split; [|split]].
  2: { unfold read_product, h_bind, query, h_ret. rewrite Hfind. reflexivity. }
  - reflexivity.
  - unfold update_products, h_bind, get_json, query, h_ret.
    rewrite check_content_type_json by done. by rewrite Hjson, Hfind.
  - unfold delete_products, h_bind, query, h_ret. by rewrite Hfind.
Qed.

Lemma Product_update_wf (db : Database Category) (p : Product Category) :
  db_wf db -> db_wf (snd (Product_update p db)).
Proof.
  intros Hwf. unfold Product_update. destruct (id p) as [i|]; [|done].
  intros j q. simpl. intros Hq.
  assert (is_Some (table db !! j)) as [q' Hq'].
  { apply lookup_alter_is_Some with (f := fun _ => p) (i := i). eauto. }
  by apply Hwf in Hq'.
Qed.

Lemma Product_delete_wf (db : Database Category) (p : Product Category) :
  db_wf db -> db_wf (snd (Product_delete p db)).
Proof.
  intros Hwf. unfold Product_delete. destruct (id p) as [i|]; [|done].
  intros j q. simpl. intros Hq.
  apply lookup_delete_Some in Hq as [_ Hq]. by apply Hwf in Hq.
Qed.

(** One step: when every id in use is below [next_id], each of the five
    product routes leaves a database where this still holds. *)
Lemma routes_keep_ids_below_next (req : Request) (product_id : string)
  (db : Database Category) :
  db_wf db ->
  db_wf (snd (create_products req db)) /\
  db_wf (snd (read_all_products req db)) /\
  db_wf (snd (read_product product_id db)) /\
  db_wf (snd (update_products product_id req db)) /\
  db_wf (snd (delete_products product_id db)).
Proof.
  intros Hwf.
  split; [|split; [|split; [|split]]].
  - unfold create_products, h_bind.
    rewrite check_content_type_decide. case_bool_decide; [|done].
    unfold get_json, abort, raise, attempt, h_ret.
    destruct (json_body req) as [data|description]; [|done].
    destruct (deserialize_json None data) as [e|p]; [done|].
    by apply (Product_create_wf db p).
  - by rewrite read_all_products_keeps_db.
  - by rewrite read_product_keeps_db.
  - unfold update_products, h_bind.
    rewrite check_content_type_decide. case_bool_decide; [|done].
    unfold get_json, abort, raise, attempt, h_ret, query.
    destruct (json_body req) as [data|description]; [|done].
    destruct (Product_find_text db product_id) as [p0|]; [|done].
    destruct (deserialize_json (id p0) data) as [e|p]; [done|].
    pose proof (Product_update_wf db p Hwf) as Hu.
    by destruct (Product_update p db) as [[e|[]] db'].
  - unfold delete_products, h_bind, query, h_ret.
    destruct (Product_find_text db product_id) as [p|]; [|done].
    pose proof (Product_delete_wf db p Hwf) as Hd.
    by destruct (Product_delete p db) as [[e|[]] db'].
Qed.

(** [POST /products] with a payload that deserializes adds exactly one
    product: the id it answers was not in use, [all()] holds one
    product more, and every product stored before is found as it
    was. *)
Theorem create_products_adds_one (db : Database Category) (req : Request) (data : PyJson)
  (p : Product Category) :
  db_wf db ->
  content_type_header req = Some "application/json" ->
  json_body req = Decoded data ->
  deserialize_json None data = inr p ->
  exists (i : nat) (r : Response) (db' : Database Category),
    create_products req db = (inr r, db') /\
    body r = JsonObject (serialize (with_id (Some i) p)) /\
    Product_find db i = None /\
    Product_find db' i = Some (with_id (Some i) p) /\
    length (Product_all db') = S (length (Product_all db)) /\
    forall j, is_Some (table db !! j) -> Product_find db' j = Product_find db j.
Proof.
  intros Hwf Hct Hjson Hd.
  pose proof (db_wf_fresh db Hwf) as Hfresh.
  exists (next_id db). eexists. exists (snd (Product_create p db)).
  split.
  { by eapply create_products_ok. }
  split; [reflexivity|]. split.
  { unfold Product_find. by rewrite Hfresh. }
  split; [apply Product_find_create|]. split.
  { rewrite !length_Product_all. unfold Product_create. simpl.
    by rewrite map_size_insert_None. }
  intros j Hj. by apply Product_create_keeps.
Qed.

Lemma serve_all_wf (calls : list Call) (db : Database Category) :
  db_wf db -> db_wf (serve_all calls db).
Proof.
  revert db. induction calls as [|c rest IH]; intros db Hwf; [done|].
  simpl. apply IH.
  assert (Hs : snd (serve (handle c) db) = snd (handle c db)).
  { unfold serve. by destruct (handle c db) as [[e|r] db']. }
  rewrite Hs.
  destruct c as [req|req|product_id|product_id req|product_id]; simpl.
  - by destruct (routes_keep_ids_below_next req "" db Hwf) as (H & _).
  - by destruct (routes_keep_ids_below_next req "" db Hwf) as (_ & H & _).
  - by destruct (routes_keep_ids_below_next
                   (mkRequest None (Undecodable "") []) product_id db Hwf)
      as (_ & _ & H & _).
  - by destruct (routes_keep_ids_below_next req product_id db Hwf) as (_ & _ & _ & H & _).
  - by destruct (routes_keep_ids_below_next
                   (mkRequest None (Undecodable "") []) product_id db Hwf)
      as (_ & _ & _ & _ & H).
Qed.

(** Whatever calls of the five product routes were served since the
    database was empty, in whatever order and with whatever outcomes, a
    [POST /products] with JSON content type and a body that
    deserializes adds exactly one product: the id it answers belongs
    to no stored product, the product is found under it afterwards,
    [all()] holds one product more, and every product stored before is
    found as it was. *)
Theorem valid_post_after_any_calls (calls : list Call) (req : Request) (data : PyJson)
  (p : Product Category) :
  content_type_header req = Some "application/json" ->
  json_body req = Decoded data ->
  deserialize_json None data = inr p ->
  exists (i : nat) (r : Response) (db' : Database Category),
    create_products req (serve_all calls empty_db) = (inr r, db') /\
    body r = JsonObject (serialize (with_id (Some i) p)) /\
    Product_find (serve_all calls empty_db) i = None /\
    Product_find db' i = Some (with_id (Some i) p) /\
    length (Product_all db') = S (length (Product_all (serve_all calls empty_db))) /\
    forall j q, Product_find (serve_all calls empty_db) j = Some q ->
                Product_find db' j = Some q.
Proof.
  intros Hct Hjson Hd.
  pose proof (serve_all_wf calls empty_db db_wf_empty) as Hwf.
  set (db := serve_all calls empty_db) in *.
  pose proof (db_wf_fresh db Hwf) as Hfresh.
  exists (next_id db). eexists. exists (snd (Product_create p db)).
  split; [by eapply create_products_ok|].
  split; [reflexivity|]. split.
  { unfold Product_find. by rewrite Hfresh. }
  split; [apply Product_find_create|]. split.
  { rewrite !length_Product_all. unfold Product_create. simpl.
    by rewrite map_size_insert_None. }
  intros j q Hq. rewrite Product_create_keeps; [done|done|].
  unfold Product_find in Hq. destruct (table db !! j); [eauto|discriminate].
Qed.

End Properties.

(** ** The properties on concrete inputs *)

Lemma sample_names_distinct (a b : SampleCategory) :
  In a Category_members -> In b Category_members ->
  Category_name a = Category_name b -> a = b.
Proof. destruct a, b; simpl; intros _ _ Heq; (reflexivity || discriminate). Qed.

Lemma sample_no_member_named (s : string) :
  s <> "CLOTHS" -> s <> "FOOD" ->
  forall c : SampleCategory, In c Category_members -> Category_name c <> s.
Proof. intros H1 H2 [|] _ Heq; simpl in Heq; congruence. Qed.

Lemma create_deserialized_then_find_witness :
  deserialize None fedora_payload = inr fedora /\
  exists (i : nat) (p' : Product SampleCategory) (db' : Database SampleCategory),
    Product_create fedora empty_db = (inr p', db') /\
    id p' = Some i /\
    exists q, Product_find db' i = Some q /\
      fedora_payload !! "name" = Some (VStr (name q)) /\
      fedora_payload !! "description" = Some (VStr (description q)) /\
      fedora_payload !! "price" = Some (VNum (price q)) /\
      fedora_payload !! "available" = Some (VBool (available q)) /\
      fedora_payload !! "category" = Some (VStr (Category_name (category q))).
Proof.
  split; [vm_compute; reflexivity|].
  apply (create_deserialized_then_find empty_db fedora_payload fedora).
  vm_compute; reflexivity.
Defined.

Lemma update_without_id_fails_witness :
  id fedora = None /\
  Product_update fedora empty_db = (inl (DataValidationError EmptyId), empty_db).
Proof.
  split; [reflexivity|].
  apply (update_without_id_fails empty_db fedora). reflexivity.
Defined.

Lemma deserialize_serialize_witness :
  In (category fedora) Category_members /\
  exists q, deserialize None (serialize fedora) = inr q /\
    id q = None /\
    name q = "Fedora" /\
    description q = "A red hat" /\
    price q = {| unscaled := 1250; scale := 2 |} /\
    available q = true /\
    category q = CLOTHS.
Proof.
  split; [simpl; auto|].
  apply (deserialize_serialize None fedora sample_names_distinct).
  simpl; auto.
Defined.

Lemma wrong_content_type_is_415_witness :
  content_type_header text_request <> Some "application/json" /\
  create_products text_request one_product_db = (inl unsupported_media_type, one_product_db) /\
  update_products "1" text_request one_product_db =
    (inl unsupported_media_type, one_product_db) /\
  status (fst (serve (create_products text_request) one_product_db)) =
    HTTP_415_UNSUPPORTED_MEDIA_TYPE /\
  snd (serve (create_products text_request) one_product_db) = one_product_db /\
  status (fst (serve (update_products "1" text_request)
                     one_product_db)) = HTTP_415_UNSUPPORTED_MEDIA_TYPE /\
  snd (serve (update_products "1" text_request) one_product_db) =
    one_product_db.
Proof.
  split; [simpl; discriminate|].
  apply (wrong_content_type_is_415 one_product_db text_request "1").
  simpl; discriminate.
Defined.


Lemma unknown_category_raises_witness :
  args_get "category" (args shoes_request) = Some "shoes" /\
  read_all_products (upper := ascii_str_upper) shoes_request one_product_db =
    (inl (AttributeError "SHOES"), one_product_db) /\
  status (fst (serve (read_all_products (upper := ascii_str_upper) shoes_request)
                     one_product_db)) = HTTP_500_INTERNAL_SERVER_ERROR /\
  status (fst (serve (read_all_products (upper := ascii_str_upper) shoes_request)
                     one_product_db)) <> HTTP_400_BAD_REQUEST.
Proof.
  split; [reflexivity|].
  apply (unknown_category_raises (upper := ascii_str_upper)
           shoes_request one_product_db "shoes").
  - reflexivity.
  - reflexivity.
  - discriminate.
  - apply sample_no_member_named; discriminate.
Defined.

(** C9, as the claim states it, fails.  In
    [GET /products?name=Fedora&category=shoes] the category, upper-cased,
    names no member, but the name filter comes first and the answer is
    200; in [GET /products?category=] the empty text names no member
    either, and it counts as absent: the answer is 200 with all
    products.  No [AttributeError] is raised in either case. *)
Lemma unknown_category_not_always_raised :
  (forall c : SampleCategory,
     In c Category_members -> Category_name c <> string_upper "shoes") /\
  args_get "category" (args fedora_shoes_request) = Some "shoes" /\
  read_all_products (upper := ascii_str_upper) fedora_shoes_request one_product_db =
    (inr (listing (find_by_name one_product_db "Fedora")), one_product_db) /\
  status (fst (serve (read_all_products (upper := ascii_str_upper) fedora_shoes_request)
                     one_product_db)) = HTTP_200_OK /\
  (forall c : SampleCategory,
     In c Category_members -> Category_name c <> string_upper "") /\
  args_get "category" (args empty_category_request) = Some "" /\
  read_all_products (upper := ascii_str_upper) empty_category_request one_product_db =
    (inr (listing (Product_all one_product_db)), one_product_db) /\
  status (fst (serve (read_all_products (upper := ascii_str_upper) empty_category_request)
                     one_product_db)) = HTTP_200_OK.
Proof.
  split; [apply sample_no_member_named; discriminate|].
  split; [reflexivity|]. split; [vm_compute; reflexivity|]. split; [reflexivity|].
  split; [apply sample_no_member_named; discriminate|].
  split; [reflexivity|]. split; [vm_compute; reflexivity|]. reflexivity.
Qed.

(** C1, as the claim states it, fails: no product has id 1 in the
    empty database, and [DELETE /products/1] is answered 404 with a
    message, not 204 with an empty body. *)
Lemma delete_missing_product_is_404 :
  Product_find_text (@empty_db SampleCategory) "1" = None /\
  status (fst (serve (delete_products "1") (@empty_db SampleCategory))) = HTTP_404_NOT_FOUND /\
  status (fst (serve (delete_products "1") (@empty_db SampleCategory))) <> HTTP_204_NO_CONTENT /\
  body (fst (serve (delete_products "1") (@empty_db SampleCategory))) <> BodyText "".
Proof. vm_compute. repeat split; discriminate. Qed.

(** C2, the code at a failing input: no product has id 7 in the empty
    database; [GET /products/7] and [PUT /products/7] are answered 404,
    and the message is the text of Python's built-in [id], in which the
    requested id 7 does not occur. *)
Theorem not_found_message_omits_requested_id :
  Product_find_text (@empty_db SampleCategory) "7" = None /\
  serve (read_product "7") (@empty_db SampleCategory) =
    ({| status := HTTP_404_NOT_FOUND;
        body := JsonString "product with id:<built-in function id> not found";
        headers := [] |}, empty_db) /\
  serve (update_products "7" json_request) (@empty_db SampleCategory) =
    ({| status := HTTP_404_NOT_FOUND;
        body := JsonString "product with id:<built-in function id> not found";
        headers := [] |}, empty_db) /\
  mentions "product with id:<built-in function id> not found" "7" = false.
Proof. repeat split; vm_compute; reflexivity. Qed.

(** ** The further properties on concrete inputs *)

Lemma one_product_db_wf : db_wf one_product_db.
Proof. apply Product_create_wf, db_wf_empty. Qed.

Lemma create_each_adds_each_witness :
  db_wf (@empty_db SampleCategory) /\
  fst (create_each [fedora; fedora] empty_db) = inr tt /\
  db_wf (snd (create_each [fedora; fedora] empty_db)) /\
  length (Product_all (snd (create_each [fedora; fedora] empty_db))) =
    length (Product_all (@empty_db SampleCategory)) + 2 /\
  next_id (snd (create_each [fedora; fedora] empty_db)) =
    next_id (@empty_db SampleCategory) + 2.
Proof.
  split; [apply db_wf_empty|].
  apply (create_each_adds_each [fedora; fedora] empty_db). apply db_wf_empty.
Defined.

Lemma create_then_delete_restores_witness :
  db_wf one_product_db /\
  exists (p' : Product SampleCategory) (db1 db2 : Database SampleCategory),
    Product_create fedora one_product_db = (inr p', db1) /\
    Product_delete p' db1 = (inr tt, db2) /\
    id p' = Some (next_id one_product_db) /\
    table db2 = table one_product_db /\
    Product_all db2 = Product_all one_product_db /\
    Product_find db2 (next_id one_product_db) = None.
Proof.
  split; [apply one_product_db_wf|].
  apply (create_then_delete_restores one_product_db fedora). apply one_product_db_wf.
Defined.

Lemma update_then_find_witness :
  id fedora_updated = Some 1 /\
  is_Some (table one_product_db !! 1) /\
  exists db' : Database SampleCategory,
    Product_update fedora_updated one_product_db = (inr tt, db') /\
    Product_find db' 1 = Some fedora_updated /\
    length (Product_all db') = length (Product_all one_product_db) /\
    forall j, j <> 1 -> Product_find db' j = Product_find one_product_db j.
Proof.
  split; [reflexivity|]. split; [vm_compute; eauto|].
  apply (update_then_find one_product_db fedora_updated 1).
  - reflexivity.
  - vm_compute; eauto.
Defined.

Lemma category_filter_through_upper_witness :
  string_upper "cloths" = string_upper "Cloths" /\
  read_all_products (upper := ascii_str_upper) cloths_request one_product_db =
    read_all_products (upper := ascii_str_upper) Cloths_request one_product_db.
Proof.
  split; [reflexivity|].
  apply (category_filter_through_upper (upper := ascii_str_upper)
           cloths_request Cloths_request one_product_db "cloths" "Cloths").
  - reflexivity.
  - reflexivity.
  - reflexivity.
  - discriminate.
  - reflexivity.
  - discriminate.
  - reflexivity.
Defined.

Lemma update_then_read_witness :
  Product_find_text one_product_db "1" = Some (with_id (Some 1) fedora) /\
  deserialize_json (Some 1) fedora_put_json = inr fedora_put_result /\
  exists db' : Database SampleCategory,
    update_products "1" put_request one_product_db =
      (inr {| status := HTTP_200_OK; body := JsonObject (serialize fedora_put_result);
              headers := [("Location", "/")] |}, db') /\
    read_product "1" db' =
      (inr {| status := HTTP_200_OK; body := JsonObject (serialize fedora_put_result);
              headers := [] |}, db') /\
    update_products "1" put_request db' =
      (inr {| status := HTTP_200_OK; body := JsonObject (serialize fedora_put_result);
              headers := [("Location", "/")] |}, db').
Proof.
  split; [vm_compute; reflexivity|]. split; [vm_compute; reflexivity|].
  destruct (update_then_read one_product_db put_request "1" fedora_put_json
              (with_id (Some 1) fedora) fedora_put_result)
    as (db' & Hput & _ & Hget & _ & _ & Hagain).
  - reflexivity.
  - reflexivity.
  - vm_compute; reflexivity.
  - vm_compute; reflexivity.
  - exists db'. auto.
Defined.

Lemma create_then_read_witness :
  deserialize_json None fedora_json = inr fedora_received /\
  exists (i : nat) (o : Payload) (db' : Database SampleCategory),
    create_products json_request empty_db =
      (inr {| status := HTTP_201_CREATED; body := JsonObject o;
              headers := [("Location", "/")] |}, db') /\
    o !! "id" = Some (VNum (Decimal_of_nat i)) /\
    forall product_id, id_of_text product_id = Some i ->
      read_product product_id db' =
        (inr {| status := HTTP_200_OK; body := JsonObject o; headers := [] |}, db').
Proof.
  split; [vm_compute; reflexivity|].
  apply (create_then_read empty_db json_request fedora_json fedora_received).
  - reflexivity.
  - reflexivity.
  - vm_compute; reflexivity.
Defined.

Lemma delete_then_gone_witness :
  Product_find_text one_product_db "1" = Some (with_id (Some 1) fedora) /\
  exists db' : Database SampleCategory,
    delete_products "1" one_product_db =
      (inr {| status := HTTP_204_NO_CONTENT; body := BodyText ""; headers := [] |}, db') /\
    status (fst (serve (read_product "1") db')) = HTTP_404_NOT_FOUND /\
    status (fst (serve (delete_products "1") db')) = HTTP_404_NOT_FOUND.
Proof.
  split; [vm_compute; reflexivity|].
  destruct (delete_then_gone one_product_db "1" (with_id (Some 1) fedora))
    as (db' & Hdel & Hget & Hagain & _).
  - vm_compute; reflexivity.
  - exists db'. auto.
Defined.

Lemma missing_product_is_404_witness :
  Product_find_text one_product_db "7" = None /\
  exists r : Response,
    status r = HTTP_404_NOT_FOUND /\
    read_product "7" one_product_db = (inr r, one_product_db) /\
    update_products "7" put_request one_product_db = (inr r, one_product_db) /\
    delete_products "7" one_product_db = (inr r, one_product_db).
Proof.
  split; [vm_compute; reflexivity|].
  apply (missing_product_is_404 one_product_db put_request "7" fedora_put_json).
  - vm_compute; reflexivity.
  - reflexivity.
  - reflexivity.
Defined.

Lemma create_products_adds_one_witness :
  db_wf one_product_db /\
  deserialize_json None fedora_json = inr fedora_received /\
  exists (i : nat) (r : Response) (db' : Database SampleCategory),
    create_products json_request one_product_db = (inr r, db') /\
    body r = JsonObject (serialize (with_id (Some i) fedora_received)) /\
    Product_find one_product_db i = None /\
    Product_find db' i = Some (with_id (Some i) fedora_received) /\
    length (Product_all db') = S (length (Product_all one_product_db)) /\
    forall j, is_Some (table one_product_db !! j) ->
      Product_find db' j = Product_find one_product_db j.
Proof.
  split; [apply one_product_db_wf|]. split; [vm_compute; reflexivity|].
  apply (create_products_adds_one one_product_db json_request fedora_json fedora_received).
  - apply one_product_db_wf.
  - reflexivity.
  - reflexivity.
  - vm_compute; reflexivity.
Defined.

Lemma valid_post_after_any_calls_witness :
  deserialize_json None fedora_json = inr fedora_received /\
  exists (i : nat) (r : Response) (db' : Database SampleCategory),
    create_products json_request
      (serve_all (upper := ascii_str_upper)
         [CallCreate json_request; CallDelete "1"; CallUpdate "1" put_request;
          CallReadAll shoes_request; CallCreate json_request] empty_db) = (inr r, db') /\
    body r = JsonObject (serialize (with_id (Some i) fedora_received)) /\
    Product_find db' i = Some (with_id (Some i) fedora_received).
Proof.
  split; [vm_compute; reflexivity|].
  destruct (valid_post_after_any_calls (upper := ascii_str_upper)
              [CallCreate json_request; CallDelete "1"; CallUpdate "1" put_request;
               CallReadAll shoes_request; CallCreate json_request]
              json_request fedora_json fedora_received)
    as (i & r & db' & Hpost & Hbody & _ & Hfind & _).
  - reflexivity.
  - reflexivity.
  - vm_compute; reflexivity.
  - exists i, r, db'. auto.
Defined.
